(** * ASI.py: durable cache, memory table and maintenance loop

    A shallow embedding of [src/ASI.py].  The Python object [self], the file
    system, the store of list objects and the log are threaded through a
    state-and-exception monad: a method is a function from the world to an
    outcome (a value, a raised exception, or a signal that no
    [except Exception] catches) and the world it leaves behind.
    A raised exception never rolls the world back, as in Python. *)

From Stdlib Require Import ZArith Lia.
From stdpp Require Import base option list strings gmap fin_maps countable pretty.

Open Scope Z_scope.

(** ** Exceptions

    An [exn] is an instance of a subclass of Python's [Exception]: what
    [open], list indexing, [pickle.load], [ctypes.CDLL] and [fit] raise when
    they fail.  A [signal] is an instance of [BaseException] outside
    [Exception]; [except Exception] does not catch it.  Unpickling runs the
    callables a pickle names, so [pickle.load] can end in [sys.exit]. *)

Inductive exn_class :=
  | FileNotFoundError
  | IsADirectoryError
  | PermissionError
  | OSError
  | IndexError
  | UnpicklingError
  | EOFError
  | ValueError.

Record exn := Exn { exn_kind : exn_class; exn_msg : string }.

(** [SystemExit (code)] is what [sys.exit(code)] raises. *)
Inductive signal :=
  | SystemExit (code : Z)
  | KeyboardInterrupt.

Inductive res (A : Type) :=
  | Ok (a : A)
  | Raise (e : exn)
  | Escape (s : signal).
Arguments Ok {A} a.
Arguments Raise {A} e.
Arguments Escape {A} s.

(** ** Values stored in the two dictionaries *)

#[warnings="-register-all"]
Inductive pyval :=
  | PyNone
  | PyBool (b : bool)
  | PyInt (z : Z)
  | PyStr (s : string)
  | PyList (l : list pyval).

Abbreviation dict := (gmap string pyval).
Abbreviation bytes := (list Byte.byte).

(** ** The log written through [logging] *)

Inductive level := INFO | WARNING | ERROR.

(** The pieces of an f-string, before rendering. *)
Inductive part :=
  | Text (s : string)
  | Str (s : string)
  | Val (v : pyval)
  | Err (e : exn).

Record log_record := LogRecord { lvl : level; msg : list part }.

(** ** The file system: [os.path.exists] holds of files and directories,
    [open] succeeds on the files the process is allowed to open.  [Denied]
    is a file whose permissions refuse the process. *)

Inductive node :=
  | File (content : bytes)
  | Denied (content : bytes)
  | Dir.

(** ** The classifier, kept opaque: its configuration and the training sets
    it was fitted on. *)

Record MLPClassifier := {
  hidden_layer_sizes : list Z;
  max_iter : Z;
  fitted : list (list (list Z) * list Z)
}.

(** ** The object [self] and the world *)

Abbreviation datetime := Z (only parsing).  (* microseconds on the naive time line *)
Abbreviation loc := positive (only parsing). (* identity of a list object *)

(** A feature list [X] is a list of identities of list objects; the objects
    live in [heap], so that two places of [X] may name one object.  The
    coordinates are Python ints, exact and unbounded; the rounding of floats
    is not modelled. *)

Record ASI := {
  memory : dict;
  cache : dict;
  model : MLPClassifier;
  last_update_time : datetime
}.

(** [logging.basicConfig(filename='asi.log', ...)] sends every log record
    to the file asi.log.  That file is kept apart from the others: [log] is
    its content, record by record, and [fs] is the rest of the file system,
    every path but [asi_log]. *)
Definition asi_log : string := "asi.log".

Record world := {
  self : ASI;
  fs : gmap string node;
  heap : gmap loc (list Z);
  log : list log_record;
  clock : datetime
}.

Definition set_memory (m : dict) (a : ASI) : ASI :=
  {| memory := m; cache := cache a; model := model a;
     last_update_time := last_update_time a |}.
Definition set_cache (c : dict) (a : ASI) : ASI :=
  {| memory := memory a; cache := c; model := model a;
     last_update_time := last_update_time a |}.
Definition set_model (md : MLPClassifier) (a : ASI) : ASI :=
  {| memory := memory a; cache := cache a; model := md;
     last_update_time := last_update_time a |}.
Definition set_last_update_time (t : datetime) (a : ASI) : ASI :=
  {| memory := memory a; cache := cache a; model := model a;
     last_update_time := t |}.

Definition with_self (f : ASI → ASI) (w : world) : world :=
  {| self := f (self w); fs := fs w; heap := heap w; log := log w;
     clock := clock w |}.
Definition with_fs (f : gmap string node → gmap string node) (w : world) : world :=
  {| self := self w; fs := f (fs w); heap := heap w; log := log w;
     clock := clock w |}.
Definition with_heap (f : gmap loc (list Z) → gmap loc (list Z)) (w : world) : world :=
  {| self := self w; fs := fs w; heap := f (heap w); log := log w;
     clock := clock w |}.
Definition with_log (f : list log_record → list log_record) (w : world) : world :=
  {| self := self w; fs := fs w; heap := heap w; log := f (log w);
     clock := clock w |}.
Definition with_clock (f : datetime → datetime) (w : world) : world :=
  {| self := self w; fs := fs w; heap := heap w; log := log w;
     clock := f (clock w) |}.

(** ** The monad *)

Definition M (A : Type) : Type := world → res A * world.

Definition ret {A} (a : A) : M A := λ w, (Ok a, w).
Definition raise {A} (e : exn) : M A := λ w, (Raise e, w).
Definition escape {A} (s : signal) : M A := λ w, (Escape s, w).
Definition bind {A B} (m : M A) (k : A → M B) : M B :=
  λ w, match m w with
       | (Ok a, w') => k a w'
       | (Raise e, w') => (Raise e, w')
       | (Escape s, w') => (Escape s, w')
       end.
(** [try: body except Exception as e: handler e]: a [signal] is no
    [Exception] and passes through. *)
Definition try_except {A} (body : M A) (handler : exn → M A) : M A :=
  λ w, match body w with
       | (Ok a, w') => (Ok a, w')
       | (Raise e, w') => handler e w'
       | (Escape s, w') => (Escape s, w')
       end.

Definition get : M world := λ w, (Ok w, w).
Definition modify (f : world → world) : M unit := λ w, (Ok tt, f w).

Declare Scope py_scope.
Delimit Scope py_scope with py.
Notation "x <- m ;; k" := (bind m (λ x, k))
  (at level 100, m at next level, right associativity) : py_scope.
Notation "m ;; k" := (bind m (λ _, k))
  (at level 100, right associativity) : py_scope.
Open Scope py_scope.

(** [for x in xs: body x] *)
Fixpoint for_ {A} (xs : list A) (body : A → M unit) : M unit :=
  match xs with
  | [] => ret tt
  | x :: xs' => body x ;; for_ xs' body
  end.

(** ** The library calls the program makes *)

Definition logging (l : level) (m : list part) : M unit :=
  modify (with_log (λ lg, lg ++ [LogRecord l m])).
Definition logging_info (m : list part) : M unit := logging INFO m.
Definition logging_warning (m : list part) : M unit := logging WARNING m.
Definition logging_error (m : list part) : M unit := logging ERROR m.

Definition os_path_exists (path : string) : M bool :=
  w <- get ;; ret (bool_decide (is_Some (fs w !! path))).

Definition datetime_now : M datetime := w <- get ;; ret (clock w).

(** [timedelta(days=d)], in microseconds. *)
Definition timedelta_days (d : Z) : Z := d * 86400000000.

(** [time.sleep(secs)]: the clock moves on by the time asked for, which is
    the least the call takes; what the loop is shown to do over several
    turns does not rest on the amount. *)
Definition time_sleep (secs : Z) : M unit :=
  modify (with_clock (λ t, t + secs * 1000000)).

(** [open(path, 'wb')]: the file is created or truncated; the handle is the
    path written through. *)
Definition open_wb (path : string) : M string :=
  w <- get ;;
  match fs w !! path with
  | Some Dir => raise (Exn IsADirectoryError path)
  | Some (Denied _) => raise (Exn PermissionError path)
  | _ => modify (with_fs <[path := File []]>) ;; ret path
  end.

(** [f.write(b)] on a handle opened for writing: [b] lands after what the
    handle has written so far. *)
Definition file_write (f : string) (b : bytes) : M unit :=
  w <- get ;;
  match fs w !! f with
  | Some (File old) => modify (with_fs <[f := File (old ++ b)]>)
  | _ => raise (Exn OSError f)
  end.

(** [open(path, 'rb')]: the handle is the content to read. *)
Definition open_rb (path : string) : M bytes :=
  w <- get ;;
  match fs w !! path with
  | Some (File b) => ret b
  | Some (Denied _) => raise (Exn PermissionError path)
  | Some Dir => raise (Exn IsADirectoryError path)
  | None => raise (Exn FileNotFoundError path)
  end.

(** [xs[i]] on a list value. *)
Definition getitem {A} (xs : list A) (i : nat) : M A :=
  match xs !! i with
  | Some x => ret x
  | None => raise (Exn IndexError "list index out of range")
  end.

(** The content of the list object [l]; every reference a program holds is
    to a live object, so an identity the store does not know stands for []. *)
Definition deref (h : gmap loc (list Z)) (l : loc) : list Z := default [] (h !! l).

(** [v[i]] and [v[i] = z] on the list object [v]. *)
Definition getitem_obj (v : loc) (i : nat) : M Z :=
  w <- get ;; getitem (deref (heap w) v) i.

Definition setitem_obj (v : loc) (i : nat) (z : Z) : M unit :=
  w <- get ;;
  if decide (i < length (deref (heap w) v))%nat
  then modify (with_heap <[v := <[i := z]> (deref (heap w) v)]>)
  else raise (Exn IndexError "list assignment index out of range").

(** *** Libraries outside the repository, taken as interfaces *)

(** [pickle]: the serialised form of a dictionary, and reading it back;
    reading may fail with an exception, or not come back at all. *)
Class Pickle := {
  pickle_dumps : dict → bytes;
  pickle_loads : bytes → res dict
}.

(** What the library promises of the two: loading what was dumped gives the
    dictionary back. *)
Definition pickle_faithful `{Pickle} : Prop :=
  ∀ d, pickle_loads (pickle_dumps d) = Ok d.

(** [ctypes.CDLL(path)]: a handle, or the loader's error, which is an
    [OSError] and so an [Exception]. *)
Inductive CDLL_handle := Handle (name : string).

Class Ctypes := {
  CDLL : gmap string node → string → res CDLL_handle;
  CDLL_error : ∀ files path s, CDLL files path ≠ Escape s
}.

(** [MLPClassifier.fit(X, y)]: the error it rejects the training set with,
    if any. *)
Class Sklearn := {
  fit_error : MLPClassifier → list (list Z) → list Z → option exn
}.

(** [str(t)] of a [datetime]. *)
Class DatetimeStr := {
  datetime_str : datetime → string
}.

Definition pickle_dump `{Pickle} (obj : dict) (f : string) : M unit :=
  file_write f (pickle_dumps obj).

Definition pickle_load `{Pickle} (f : bytes) : M dict :=
  match pickle_loads f with
  | Ok d => ret d
  | Raise e => raise e
  | Escape s => escape s
  end.

Definition model_fit `{Sklearn} (X : list loc) (y : list Z) : M unit :=
  w <- get ;;
  let data := deref (heap w) <$> X in
  let md := model (self w) in
  match fit_error md data y with
  | Some e => raise e
  | None =>
      modify (with_self (set_model
        {| hidden_layer_sizes := hidden_layer_sizes md;
           max_iter := max_iter md;
           fitted := fitted md ++ [(data, y)] |}))
  end.

(** ** class ASI *)

Definition cache_dump_pkl : string := "cache_dump.pkl".

Definition ASI_init : M unit :=
  now <- datetime_now ;;
  modify (with_self (λ _,
    {| memory := ∅; cache := ∅;
       model := {| hidden_layer_sizes := [10; 5]; max_iter := 500; fitted := [] |};
       last_update_time := now |})).

Definition load_plugins `{Ctypes} (file_path : string) : M (option CDLL_handle) :=
  ex <- os_path_exists file_path ;;
  if ex : bool then
    try_except
      (logging_info [Text "Loading plugin: "; Str file_path] ;;
       w <- get ;;
       match CDLL (fs w) file_path with
       | Ok plugin => ret (Some plugin)
       | Raise e => raise e
       | Escape s => escape s
       end)
      (λ e, logging_error [Text "Error loading plugin: "; Err e] ;; ret None)
  else
    logging_error [Text "Plugin file "; Str file_path; Text " not found."] ;;
    ret None.

(** Truth value of the argument [Z_calibration]: [None] and 0 are false. *)
Definition truthy (c : option Z) : bool :=
  match c with
  | Some z => negb (z =? 0)
  | None => false
  end.

Definition self_learn `{Sklearn} (X : list loc) (y : list Z)
    (Z_calibration : option Z) : M unit :=
  (if truthy Z_calibration then
     logging_info [Text "Applying Z-axis calibration..."] ;;
     for_ (seq 0 (length X)) (λ i,
       Xi <- getitem X i ;;
       z <- getitem_obj Xi 2 ;;
       Xi' <- getitem X i ;;
       setitem_obj Xi' 2 (z + default 0 Z_calibration))
   else
     logging_info [Text "No Z-axis calibration provided, using raw Z data."]) ;;
  logging_info [Text "Learning from new data with Z-axis calibration..."] ;;
  model_fit X y.

Definition update_memory (key : string) (value : pyval) : M unit :=
  modify (with_self (λ a, set_memory (<[key := value]> (memory a)) a)) ;;
  logging_info [Text "Memory updated: "; Str key; Text " -> "; Val value].

Definition dump_cache `{Pickle} : M unit :=
  logging_info [Text "Dumping cache to file..."] ;;
  f <- open_wb cache_dump_pkl ;;
  w <- get ;;
  pickle_dump (cache (self w)) f.

Definition restore_cache `{Pickle} : M unit :=
  logging_info [Text "Restoring from last cache dump..."] ;;
  ex <- os_path_exists cache_dump_pkl ;;
  if ex : bool then
    f <- open_rb cache_dump_pkl ;;
    d <- pickle_load f ;;
    modify (with_self (set_cache d)) ;;
    logging_info [Text "Cache restored successfully."]
  else
    logging_warning [Text "No cache dump found. Starting fresh."].

Definition self_heal `{Pickle} : M unit :=
  logging_info [Text "Attempting self-healing..."] ;;
  try_except
    (restore_cache ;;
     logging_info [Text "Self-healing successful."])
    (λ e, logging_error [Text "Self-healing failed: "; Err e]).

(** One turn of the [while True] loop of [maintain_memory]. *)
Definition maintain_memory_body `{DatetimeStr} : M unit :=
  current_time <- datetime_now ;;
  w <- get ;;
  (if bool_decide (current_time - last_update_time (self w) > timedelta_days 1)
   then
     logging_info [Text "Performing daily memory update..."] ;;
     update_memory "last_update" (PyStr (datetime_str current_time)) ;;
     modify (with_self (set_last_update_time current_time))
   else ret tt) ;;
  time_sleep 60.

(** The loop has no exit: [maintain_memory n] is its first [n] turns. *)
Fixpoint maintain_memory `{DatetimeStr} (n : nat) : M unit :=
  match n with
  | O => ret tt
  | S n' => maintain_memory_body ;; maintain_memory n'
  end.


(** The script ([__main__]) from the loading of the plugin on, the loop cut
    after [n] turns.  The steps before it build the object and train it on
    random floats, which are not modelled. *)
Definition main_after_learning `{Pickle} `{Ctypes} `{DatetimeStr} (n : nat) : M unit :=
  sensor_plugin <- load_plugins "sensors.so" ;;
  update_memory "data_point_1" (PyStr "Important value") ;;
  dump_cache ;;
  self_heal ;;
  maintain_memory n.

(** ** Vocabulary of the statements *)

(** The log lines of the durable store and of the maintenance loop. *)
Definition dumping : log_record :=
  LogRecord INFO [Text "Dumping cache to file..."].
Definition restoring : log_record :=
  LogRecord INFO [Text "Restoring from last cache dump..."].
Definition restored : log_record :=
  LogRecord INFO [Text "Cache restored successfully."].
Definition no_dump_found : log_record :=
  LogRecord WARNING [Text "No cache dump found. Starting fresh."].
Definition attempting : log_record :=
  LogRecord INFO [Text "Attempting self-healing..."].
Definition daily_update : log_record :=
  LogRecord INFO [Text "Performing daily memory update..."].
Definition memory_updated (key : string) (value : pyval) : log_record :=
  LogRecord INFO [Text "Memory updated: "; Str key; Text " -> "; Val value].

Definition applying : log_record :=
  LogRecord INFO [Text "Applying Z-axis calibration..."].
Definition learning : log_record :=
  LogRecord INFO [Text "Learning from new data with Z-axis calibration..."].

(** The number of calls of [update_memory] a log records. *)
Definition is_memory_update (r : log_record) : bool :=
  match msg r with
  | Text s :: _ => String.eqb s "Memory updated: "
  | _ => false
  end.
Definition memory_updates (lg : list log_record) : nat :=
  length (List.filter is_memory_update lg).

Definition hours (h : Z) : Z := h * 3600 * 1000000.
Definition minutes (m : Z) : Z := m * 60 * 1000000.

(** The world as the loop finds it when [datetime.now()] answers [t]. *)
Definition checked_at (t : datetime) (w : world) : world :=
  with_clock (λ _, t) w.

(** The statement [X[i][2] = X[i][2] + c] on the list object [l = X[i]]. *)
Definition calibrate_one (c : Z) (l : loc) : M unit :=
  z <- getitem_obj l 2 ;; setitem_obj l 2 (z + c).

(** A vector that had the offset [c] added to its third coordinate [n]
    times, one addition after the other. *)
Definition calibrated (c : Z) (n : nat) (v : list Z) : list Z :=
  match v !! 2%nat with
  | Some z => <[2%nat := Nat.iter n (λ x, x + c) z]> v
  | None => v
  end.

(** The [k]-th coordinate of the list object [l], as the world has it. *)
Definition coord (w : world) (l : loc) (k : nat) : option Z :=
  deref (heap w) l !! k.

(** Every vector of [X] has its three axes. *)
Definition three_axes (w : world) (X : list loc) : Prop :=
  ∀ l, l ∈ X → (3 ≤ length (deref (heap w) l))%nat.

(** ** Stand-ins for the libraries

    Small implementations of the four interfaces, to run the model on
    concrete worlds.  None of the general statements depends on them. *)

Module Standin.

(** Values as trees, for stdpp's encoding of trees as numbers. *)
Fixpoint pyval_to_tree (v : pyval) : gen_tree (bool + Z + string) :=
  match v with
  | PyNone => GenNode 0 []
  | PyBool b => GenLeaf (inl (inl b))
  | PyInt z => GenLeaf (inl (inr z))
  | PyStr s => GenLeaf (inr s)
  | PyList l => GenNode 1 (pyval_to_tree <$> l)
  end.

Fixpoint tree_to_pyval (t : gen_tree (bool + Z + string)) : pyval :=
  match t with
  | GenLeaf (inl (inl b)) => PyBool b
  | GenLeaf (inl (inr z)) => PyInt z
  | GenLeaf (inr s) => PyStr s
  | GenNode 0 _ => PyNone
  | GenNode _ ts => PyList (tree_to_pyval <$> ts)
  end.

Lemma pyval_list_ind (P : pyval → Prop) :
  P PyNone → (∀ b, P (PyBool b)) → (∀ z, P (PyInt z)) → (∀ s, P (PyStr s)) →
  (∀ l, Forall P l → P (PyList l)) → ∀ v, P v.
Proof.
  intros HN HB HI HS HL. fix IH 1.
  intros [|b|z|s|l]; [exact HN|apply HB|apply HI|apply HS|].
  apply HL. induction l as [|x l IHl]; constructor; [apply IH|apply IHl].
Qed.

Lemma tree_to_pyval_to_tree v : tree_to_pyval (pyval_to_tree v) = v.
Proof.
  induction v as [| | | |l IH] using pyval_list_ind; try done.
  change (PyList (tree_to_pyval <$> (pyval_to_tree <$> l)) = PyList l).
  f_equal. rewrite <- list_fmap_compose. rewrite <- (list_fmap_id l) at 2.
  by apply Forall_fmap_ext_1.
Qed.

#[global] Instance pyval_eq_dec : EqDecision pyval.
Proof.
  intros x y. destruct (decide (pyval_to_tree x = pyval_to_tree y)) as [E|E].
  - left. apply (f_equal tree_to_pyval) in E.
    by rewrite !tree_to_pyval_to_tree in E.
  - right. congruence.
Defined.

#[global] Instance pyval_countable : Countable pyval :=
  inj_countable' pyval_to_tree tree_to_pyval tree_to_pyval_to_tree.

(** One byte per binary digit. *)
Fixpoint positive_to_bytes (p : positive) : bytes :=
  match p with
  | xH => []
  | xO p' => Byte.x00 :: positive_to_bytes p'
  | xI p' => Byte.x01 :: positive_to_bytes p'
  end.

Fixpoint bytes_to_positive (b : bytes) : option positive :=
  match b with
  | [] => Some xH
  | Byte.x00 :: b' => xO <$> bytes_to_positive b'
  | Byte.x01 :: b' => xI <$> bytes_to_positive b'
  | _ => None
  end.

(** The pickle [csys\nexit\n(I3\ntR.]: the global [sys.exit], applied to
    the tuple [(3,)]. *)
Definition sys_exit_pickle : bytes :=
  [Byte.x63; Byte.x73; Byte.x79; Byte.x73; Byte.x0a;
   Byte.x65; Byte.x78; Byte.x69; Byte.x74; Byte.x0a;
   Byte.x28; Byte.x49; Byte.x33; Byte.x0a; Byte.x74; Byte.x52; Byte.x2e].

Definition bytes_eqb (a b : bytes) : bool :=
  bool_decide (Byte.to_N <$> a = Byte.to_N <$> b).

(** Loading [sys_exit_pickle] calls [sys.exit(3)], as the library does. *)
#[global] Instance pickle : Pickle := {|
  pickle_dumps d := positive_to_bytes (encode d);
  pickle_loads b :=
    if bytes_eqb b sys_exit_pickle then Escape (SystemExit 3)
    else
      match bytes_to_positive b ≫= decode with
      | Some d => Ok d
      | None => Raise (Exn UnpicklingError "invalid load key")
      end
|}.

(** A loader that takes files starting with the ELF magic number. *)
Definition dlopen (files : gmap string node) (path : string) : res CDLL_handle :=
  match files !! path with
  | Some (File (Byte.x7f :: Byte.x45 :: Byte.x4c :: Byte.x46 :: _)) =>
      Ok (Handle path)
  | _ => Raise (Exn OSError "invalid ELF header")
  end.

Lemma dlopen_error files path s : dlopen files path ≠ Escape s.
Proof.
  unfold dlopen. destruct (files !! path) as [[b| |]|]; try discriminate.
  repeat (destruct b as [|[] b]; try discriminate).
Qed.

#[global] Instance ctypes : Ctypes := {|
  CDLL := dlopen;
  CDLL_error := dlopen_error
|}.

(** A classifier that wants as many labels as samples. *)
#[global] Instance sklearn : Sklearn := {|
  fit_error _ X y :=
    if decide (length X = length y) then None
    else Some (Exn ValueError "inconsistent numbers of samples")
|}.

(** The clock reading in decimal. *)
#[global] Instance datetime : DatetimeStr := {|
  datetime_str t := pretty t
|}.

End Standin.

(** ** Concrete worlds *)

(** Nothing on disk, no list object, an empty log, the clock at [t]. *)
Definition blank (t : datetime) : world :=
  {| self := {| memory := ∅; cache := ∅;
                model := {| hidden_layer_sizes := []; max_iter := 0; fitted := [] |};
                last_update_time := 0 |};
     fs := ∅; heap := ∅; log := []; clock := t |}.

(** The world right after [asi = ASI()]. *)
Definition started (t : datetime) : world := (ASI_init (blank t)).2.

(** A process that holds one cache entry. *)
Definition one_entry : world :=
  with_self (set_cache {["session" := PyInt 1]}) (started 0).

(** The snapshot path taken by a directory. *)
Definition dir_in_the_way : world :=
  with_fs <[cache_dump_pkl := Dir]> one_entry.

(** A snapshot file that holds no pickle. *)
Definition corrupt_snapshot : world :=
  with_fs <[cache_dump_pkl := File [Byte.x02]]> one_entry.

(** Two distinct vectors, and one vector named twice. *)
Definition two_vectors : world :=
  with_heap (λ _, {[1%positive := [10; 20; 30]; 2%positive := [11; 21; 31]]})
    (started 0).
Definition X_distinct : list loc := [1%positive; 2%positive].
Definition X_aliased : list loc := [1%positive; 1%positive].

(** A plugin file that is no shared library. *)
Definition bad_plugin : world :=
  with_fs <["sensors.so" := File [Byte.x00]]> (started 0).

(** The snapshot of [one_entry] on disk, and a process that holds another
    cache by then. *)
Definition after_dump : world := (dump_cache one_entry).2.
Definition stale_cache : world :=
  with_self (set_cache {["stale" := PyBool true]}) after_dump.

(** The second vector one coordinate short, and named first. *)
Definition short_vector : world :=
  with_heap <[2%positive := [11; 21]]> two_vectors.
Definition X_short_first : list loc := [2%positive; 1%positive].



(** Three days since the last update. *)
Definition overdue : world := with_clock (λ _, 259200000000) (started 0).

(** * Properties *)

(** Unfolds the monad and the library calls, leaving the tests on the world. *)
Ltac run :=
  cbv [bind ret raise escape get modify try_except logging_info logging_warning
       logging_error logging open_wb open_rb file_write datetime_now
       time_sleep getitem getitem_obj setitem_obj].

Lemma bind_run {A B} (m : M A) (k : A → M B) w :
  bind m k w = match m w with
               | (Ok a, w') => k a w'
               | (Raise e, w') => (Raise e, w')
               | (Escape s, w') => (Escape s, w')
               end.
Proof. reflexivity. Qed.

Lemma os_path_exists_None path w :
  fs w !! path = None → os_path_exists path w = (Ok false, w).
Proof.
  intros E. unfold os_path_exists, bind, get, ret.
  rewrite bool_decide_eq_false_2; [done|]. rewrite E. by intros [? ?].
Qed.

Lemma os_path_exists_Some path w n :
  fs w !! path = Some n → os_path_exists path w = (Ok true, w).
Proof.
  intros E. unfold os_path_exists, bind, get, ret.
  rewrite bool_decide_eq_true_2; [done|]. rewrite E. by eexists.
Qed.

(** ** Memory Table *)

(** C6: two updates of one key in a row leave the later value under the
    key; the table is the original one with that single entry set. *)
Theorem update_memory_overwrite (k : string) (v1 v2 : pyval) (w : world) :
  ∃ w', (update_memory k v1 ;; update_memory k v2) w = (Ok tt, w')
        ∧ memory (self w') !! k = Some v2
        ∧ memory (self w') = <[k := v2]> (memory (self w)).
Proof.
  eexists. split; [reflexivity|]. simpl. split.
  - apply lookup_insert_eq.
  - apply insert_insert_eq.
Qed.

(** The other keys keep their entries. *)
Lemma update_memory_other (k k' : string) (v : pyval) (w : world) :
  k ≠ k' → memory (self (update_memory k v w).2) !! k' = memory (self w) !! k'.
Proof. intros Hne. simpl. by apply lookup_insert_ne. Qed.

(** ** Durable Store *)

Section durable_store.
Context `{!Pickle}.

(** What a dump does: it raises when the snapshot path is a directory, and
    otherwise leaves exactly the serialised cache in the snapshot file. *)
Lemma dump_cache_run w :
  dump_cache w =
    match fs w !! cache_dump_pkl with
    | Some Dir =>
        (Raise (Exn IsADirectoryError cache_dump_pkl),
         with_log (λ lg, lg ++ [dumping]) w)
    | Some (Denied _) =>
        (Raise (Exn PermissionError cache_dump_pkl),
         with_log (λ lg, lg ++ [dumping]) w)
    | _ =>
        (Ok tt,
         with_fs <[cache_dump_pkl := File (pickle_dumps (cache (self w)))]>
           (with_log (λ lg, lg ++ [dumping]) w))
    end.
Proof.
  unfold dump_cache, pickle_dump. run. simpl.
  destruct (fs w !! cache_dump_pkl) as [[b|b|]|] eqn:E; simpl; try done.
  - rewrite lookup_insert_eq. unfold with_fs; simpl. by rewrite insert_insert_eq.
  - rewrite lookup_insert_eq. unfold with_fs; simpl. by rewrite insert_insert_eq.
Qed.

(** What a restore does, by what is found at the snapshot path. *)
Lemma restore_cache_run w :
  restore_cache w =
    let w0 := with_log (λ lg, lg ++ [restoring]) w in
    match fs w !! cache_dump_pkl with
    | None => (Ok tt, with_log (λ lg, lg ++ [no_dump_found]) w0)
    | Some Dir => (Raise (Exn IsADirectoryError cache_dump_pkl), w0)
    | Some (Denied _) => (Raise (Exn PermissionError cache_dump_pkl), w0)
    | Some (File b) =>
        match pickle_loads b with
        | Ok d => (Ok tt, with_log (λ lg, lg ++ [restored])
                            (with_self (set_cache d) w0))
        | Raise e => (Raise e, w0)
        | Escape s => (Escape s, w0)
        end
    end.
Proof.
  unfold restore_cache, bind at 1. unfold logging_info at 1, logging, modify.
  set (w0 := with_log _ w). simpl.
  destruct (fs w !! cache_dump_pkl) as [n|] eqn:E.
  - unfold bind at 1. rewrite (os_path_exists_Some _ w0 n) by done.
    unfold pickle_load. run. change (fs w0) with (fs w). rewrite E.
    destruct n as [b|b|]; [|done..]. by destruct (pickle_loads b).
  - unfold bind at 1. by rewrite (os_path_exists_None _ w0).
Qed.

Lemma dump_cache_Ok w w1 :
  dump_cache w = (Ok tt, w1) →
  fs w1 = <[cache_dump_pkl := File (pickle_dumps (cache (self w)))]> (fs w)
  ∧ self w1 = self w.
Proof.
  rewrite dump_cache_run. intros D.
  destruct (fs w !! cache_dump_pkl) as [[b|b|]|]; inversion D; subst; done.
Qed.

(** C1: after a dump that succeeded, a restore run while the snapshot
    file is as the dump left it gives the process the cache that was
    dumped: in the world the dump left, and in any other one with that
    file (the process after a restart, say). *)
Theorem restore_after_dump (w w1 w' : world) :
  pickle_faithful →
  dump_cache w = (Ok tt, w1) →
  fs w' !! cache_dump_pkl = fs w1 !! cache_dump_pkl →
  ∃ w2, restore_cache w' = (Ok tt, w2)
        ∧ cache (self w2) = cache (self w).
Proof.
  intros Hpickle [E _]%dump_cache_Ok Hfile.
  rewrite E, lookup_insert_eq in Hfile.
  rewrite restore_cache_run. simpl. rewrite Hfile, Hpickle.
  eexists. split; [reflexivity|done].
Qed.

(** C7: a second dump of the same cache succeeds whenever the first one
    did, and leaves the file system as the first one left it: the
    snapshot holds one serialised cache, not two in a row. *)
Theorem dump_cache_idempotent (w w1 : world) :
  dump_cache w = (Ok tt, w1) →
  ∃ w2, dump_cache w1 = (Ok tt, w2)
        ∧ fs w2 = fs w1
        ∧ fs w2 !! cache_dump_pkl = Some (File (pickle_dumps (cache (self w)))).
Proof.
  intros [E S]%dump_cache_Ok. rewrite dump_cache_run.
  rewrite E, lookup_insert_eq. eexists. split; [reflexivity|]. simpl.
  rewrite S, E, insert_insert_eq, lookup_insert_eq. done.
Qed.

(** C2, as the code has it: with no snapshot file, a restore returns
    normally, reports that no snapshot was found, and leaves the process
    with the cache it had before the call, whatever that cache holds; so
    the process has an empty cache after it exactly when it had one
    before (as it has when it starts). *)
Theorem restore_cache_absent (w : world) :
  fs w !! cache_dump_pkl = None →
  ∃ w', restore_cache w = (Ok tt, w')
        ∧ list.last (log w') = Some no_dump_found
        ∧ cache (self w') = cache (self w)
        ∧ (cache (self w') = ∅ ↔ cache (self w) = ∅).
Proof.
  intros E. rewrite restore_cache_run, E. eexists. split; [reflexivity|].
  simpl. split; [by rewrite last_snoc|done].
Qed.

(** C9: with no snapshot file, a restore leaves the cache, and with it the
    whole object, the files and the list objects, exactly as they were;
    only the log grows. *)
Theorem restore_cache_absent_frame (w : world) :
  fs w !! cache_dump_pkl = None →
  ∃ w', restore_cache w = (Ok tt, w')
        ∧ cache (self w') = cache (self w)
        ∧ w' = with_log (λ lg, lg ++ [restoring; no_dump_found]) w.
Proof.
  intros E. rewrite restore_cache_run, E. eexists. split; [reflexivity|].
  split; [done|]. unfold with_log; simpl. by rewrite <- app_assoc.
Qed.


(** A signal raised while unpickling is not caught: it leaves [self_heal]
    as it left the restore. *)
Lemma self_heal_signal (w : world) (b : bytes) (s : signal) :
  fs w !! cache_dump_pkl = Some (File b) →
  pickle_loads b = Escape s →
  self_heal w
  = (Escape s, with_log (λ lg, lg ++ [attempting; restoring]) w).
Proof.
  intros E L. unfold self_heal. rewrite bind_run.
  unfold logging_info at 1, logging, modify. cbv beta iota. fold attempting.
  unfold try_except. rewrite bind_run, restore_cache_run. simpl.
  rewrite E, L. f_equal. unfold with_log. simpl. by rewrite <- app_assoc.
Qed.

End durable_store.

(** ** Plugin Loader *)

Section plugin_loader.
Context `{!Ctypes}.

(** C5: when nothing exists at the path, or when the loader raises on it,
    [load_plugins] returns [None] to its caller, raising nothing; the
    failure is the last thing logged, as an error, and neither the object
    nor the files change. *)
Theorem load_plugins_failure_is_absent (file_path : string) (w : world) :
  fs w !! file_path = None ∨ (∃ e, CDLL (fs w) file_path = Raise e) →
  ∃ w' m, load_plugins file_path w = (Ok None, w')
          ∧ list.last (log w') = Some (LogRecord ERROR m)
          ∧ self w' = self w ∧ fs w' = fs w.
Proof.
  intros Hfail. unfold load_plugins, bind at 1.
  destruct (fs w !! file_path) as [n|] eqn:E.
  - destruct Hfail as [?|[e He]]; [done|].
    rewrite (os_path_exists_Some _ _ n) by done. run. simpl. rewrite He.
    do 2 eexists. split; [reflexivity|]. simpl. by rewrite last_snoc.
  - rewrite os_path_exists_None by done. run.
    do 2 eexists. split; [reflexivity|]. simpl. by rewrite last_snoc.
Qed.

(** Whatever the loader does, [load_plugins] itself never raises. *)
Lemma load_plugins_total (file_path : string) (w : world) :
  ∃ r w', load_plugins file_path w = (Ok r, w').
Proof.
  unfold load_plugins, bind at 1.
  destruct (fs w !! file_path) as [n|] eqn:E.
  - rewrite (os_path_exists_Some _ _ n) by done. run. simpl.
    destruct (CDLL (fs w) file_path) as [h|e|s] eqn:L;
      [by do 2 eexists..|by destruct (CDLL_error _ _ _ L)].
  - rewrite os_path_exists_None by done. run. by do 2 eexists.
Qed.

End plugin_loader.

(** ** Maintenance Loop *)

Section maintenance_loop.
Context `{!DatetimeStr}.

(** One turn of the loop, by the time elapsed since the last update. *)
Lemma maintain_memory_body_run (w : world) :
  maintain_memory_body w =
    if bool_decide (clock w - last_update_time (self w) > timedelta_days 1)
    then
      let stamp := PyStr (datetime_str (clock w)) in
      (Ok tt,
       with_clock (λ t, t + 60 * 1000000)
         (with_self (set_last_update_time (clock w))
            (with_log (λ lg, lg ++ [daily_update; memory_updated "last_update" stamp])
               (with_self (λ a, set_memory (<["last_update" := stamp]> (memory a)) a) w))))
    else (Ok tt, with_clock (λ t, t + 60 * 1000000) w).
Proof.
  unfold maintain_memory_body, update_memory. run. simpl.
  case_bool_decide; [|done].
  unfold with_clock, with_self, with_log; simpl. by rewrite <- app_assoc.
Qed.

(** C4: with the last update at [t0], the turn of the loop that reads the
    clock at t0 + 23h59m updates nothing (only the sleep moves the clock);
    the turn that reads it at t0 + 24h01m calls [update_memory] once, with
    the key "last_update" and the clock reading as a string, and sets
    [last_update_time] to that reading. *)
Theorem daily_threshold_boundary (w : world) (t0 : datetime) :
  last_update_time (self w) = t0 →
  let early := checked_at (t0 + hours 23 + minutes 59) w in
  let late := checked_at (t0 + hours 24 + minutes 1) w in
  maintain_memory_body early = (Ok tt, with_clock (λ t, t + 60 * 1000000) early)
  ∧ ∃ w', maintain_memory_body late = (Ok tt, w')
          ∧ memory (self w') =
              <["last_update" := PyStr (datetime_str (clock late))]> (memory (self w))
          ∧ memory_updates (log w') = S (memory_updates (log w))
          ∧ last_update_time (self w') = clock late.
Proof.
  intros Ht early late. rewrite !maintain_memory_body_run. split.
  - rewrite bool_decide_eq_false_2; [done|].
    simpl. rewrite Ht. unfold hours, minutes, timedelta_days. lia.
  - rewrite bool_decide_eq_true_2.
    + eexists. split; [reflexivity|]. simpl. split; [done|]. split; [|done].
      unfold memory_updates. rewrite List.filter_app, length_app. simpl. lia.
    + simpl. rewrite Ht. unfold hours, minutes, timedelta_days. lia.
Qed.

(** The loop never leaves by itself: any number of turns ends normally. *)
Lemma maintain_memory_runs_on (n : nat) (w : world) :
  ∃ w', maintain_memory n w = (Ok tt, w').
Proof.
  revert w. induction n as [|n IH]; intros w; simpl; [by eexists|].
  rewrite bind_run, maintain_memory_body_run.
  case_bool_decide; apply IH.
Qed.

End maintenance_loop.

(** ** Learning Adapter *)

Lemma with_heap_id w : with_heap (λ _, heap w) w = w.
Proof. by destruct w. Qed.

(** In the exact arithmetic of ints, [n] additions of [c] add [n * c]. *)
Lemma iter_add (c : Z) (n : nat) (z : Z) :
  Nat.iter n (λ x, x + c) z = z + Z.of_nat n * c.
Proof. induction n as [|n IH]; simpl; [lia|]. rewrite IH. lia. Qed.

Lemma calibrated_0 c v : calibrated c 0 v = v.
Proof.
  unfold calibrated. destruct (v !! 2%nat) as [z|] eqn:E; [|done].
  by apply list_insert_id.
Qed.

Lemma calibrated_S c n v z :
  v !! 2%nat = Some z →
  calibrated c n (<[2%nat := z + c]> v) = calibrated c (S n) v.
Proof.
  intros E. unfold calibrated. rewrite E.
  rewrite list_lookup_insert_eq by (apply lookup_lt_Some in E; lia).
  rewrite list_insert_insert_eq. by rewrite Nat.iter_succ_r.
Qed.

Lemma calibrated_lookup c n v z (k : nat) :
  v !! 2%nat = Some z →
  calibrated c n v !! k
  = if decide (k = 2%nat) then Some (Nat.iter n (λ x, x + c) z) else v !! k.
Proof.
  intros E. unfold calibrated. rewrite E. destruct (decide (k = 2%nat)) as [->|].
  - apply list_lookup_insert_eq. by apply lookup_lt_Some in E.
  - by apply list_lookup_insert_ne.
Qed.

Lemma count_occ_elem_of (X : list loc) l :
  l ∈ X → (1 ≤ count_occ Pos.eq_dec X l)%nat.
Proof.
  intros Hl. apply list_elem_of_In in Hl.
  apply (count_occ_In Pos.eq_dec) in Hl. lia.
Qed.

Lemma count_occ_NoDup (X : list loc) l :
  NoDup X → l ∈ X → count_occ Pos.eq_dec X l = 1%nat.
Proof.
  induction 1 as [|x X Hx HX IH]; intros Hl; [by apply elem_of_nil in Hl|].
  simpl. destruct (Pos.eq_dec x l) as [->|Hne].
  - f_equal. apply count_occ_not_In. by rewrite <- list_elem_of_In.
  - apply IH. apply elem_of_cons in Hl as [?|?]; [congruence|done].
Qed.

(** The loop over the indices of [X] is the loop over its elements. *)
Lemma calibration_loop_elements c (pre X : list loc) w :
  for_ (seq (length pre) (length X))
    (λ i, Xi <- getitem (pre ++ X) i ;;
          z <- getitem_obj Xi 2 ;;
          Xi' <- getitem (pre ++ X) i ;;
          setitem_obj Xi' 2 (z + c)) w
  = for_ X (calibrate_one c) w.
Proof.
  revert pre w. induction X as [|x X IH]; intros pre w; [done|].
  simpl. unfold bind at 1.
  assert ((pre ++ x :: X) !! length pre = Some x) as Hx
    by apply list_lookup_middle, eq_refl.
  assert (∀ w0, (Xi <- getitem (pre ++ x :: X) (length pre) ;;
                 z <- getitem_obj Xi 2 ;;
                 Xi' <- getitem (pre ++ x :: X) (length pre) ;;
                 setitem_obj Xi' 2 (z + c)) w0 = calibrate_one c x w0) as ->.
  { intros w0. unfold calibrate_one, getitem. rewrite Hx. run.
    by destruct (deref (heap w0) x !! 2%nat). }
  rewrite bind_run.
  destruct (calibrate_one c x w) as [[[]|e|s] w1]; [|done..].
  specialize (IH (pre ++ [x]) w1).
  rewrite length_app, <- app_assoc in IH. simpl in IH.
  by rewrite Nat.add_1_r in IH.
Qed.

(** The loop over the elements: every list object named in [X] has the
    offset applied as many times as [X] names it. *)
Lemma calibration_loop_run c (X : list loc) w :
  three_axes w X →
  ∃ h', for_ X (calibrate_one c) w = (Ok tt, with_heap (λ _, h') w)
        ∧ ∀ l, deref h' l = calibrated c (count_occ Pos.eq_dec X l) (deref (heap w) l).
Proof.
  revert w. induction X as [|x X IH]; intros w Hlen.
  - exists (heap w). simpl. unfold ret. rewrite with_heap_id. split; [done|].
    intros l. by rewrite calibrated_0.
  - destruct (deref (heap w) x !! 2%nat) as [z|] eqn:Ez.
    2:{ apply lookup_ge_None in Ez. specialize (Hlen x (list_elem_of_here _ _)). lia. }
    set (w1 := with_heap <[x := <[2%nat := z + c]> (deref (heap w) x)]> w).
    assert (calibrate_one c x w = (Ok tt, w1)) as Hone.
    { unfold calibrate_one. run. rewrite Ez.
      rewrite decide_True by (apply lookup_lt_Some in Ez; lia). done. }
    assert (∀ l, deref (heap w1) l =
                 if decide (x = l) then <[2%nat := z + c]> (deref (heap w) x)
                 else deref (heap w) l) as Hw1.
    { intros l. unfold deref at 1. simpl. rewrite lookup_insert.
      by destruct (decide (x = l)). }
    destruct (IH w1) as (h' & Hrun & Hh').
    { intros l Hl. rewrite Hw1. destruct (decide (x = l)) as [<-|].
      - rewrite length_insert. apply Hlen, list_elem_of_here.
      - apply Hlen. by apply list_elem_of_further. }
    exists h'. split.
    + simpl. unfold bind. rewrite Hone, Hrun. done.
    + intros l. rewrite Hh', Hw1. simpl.
      destruct (decide (x = l)) as [<-|Hne].
      * destruct (Pos.eq_dec x x); [|done]. by apply calibrated_S.
      * destruct (Pos.eq_dec x l); done.
Qed.

Section learning_adapter.
Context `{!Sklearn}.

Lemma model_fit_heap X y w : heap (model_fit X y w).2 = heap w.
Proof. unfold model_fit. run. by destruct (fit_error _ _ _). Qed.

(** The list objects after [self_learn], whether [fit] accepts the
    training set or raises. *)
Lemma self_learn_heap (X : list loc) (y : list Z) (c : Z) (w : world) :
  three_axes w X →
  ∀ l, deref (heap (self_learn X y (Some c) w).2) l
       = calibrated c (if decide (c = 0) then 0 else count_occ Pos.eq_dec X l)
           (deref (heap w) l).
Proof.
  intros Hlen l. unfold self_learn, truthy. simpl.
  destruct (decide (c = 0)) as [->|Hc].
  - simpl. rewrite !bind_run. run. rewrite model_fit_heap. simpl.
    by rewrite calibrated_0.
  - replace (c =? 0) with false by (symmetry; by apply Z.eqb_neq).
    simpl. rewrite !bind_run.
    unfold logging_info at 1, logging, modify. cbv beta iota.
    set (w0 := with_log _ w).
    pose proof (calibration_loop_elements c [] X w0) as Hloop.
    simpl in Hloop. rewrite Hloop. clear Hloop.
    destruct (calibration_loop_run c X w0) as (h' & -> & Hh'); [done|].
    rewrite bind_run. unfold logging_info, logging, modify. cbv beta iota.
    rewrite model_fit_heap. simpl. apply Hh'.
Qed.

(** C3, as the code has it: when the vectors of [X] are distinct list
    objects with three axes each, after [self_learn] (and whatever [fit]
    answers) the third coordinate of every vector is its original value
    plus [c], and the first two coordinates are the original ones. *)
Theorem calibration_application (X : list loc) (y : list Z) (c : Z) (w : world) :
  NoDup X →
  three_axes w X →
  let w' := (self_learn X y (Some c) w).2 in
  ∀ i l, X !! i = Some l →
    coord w' l 0 = coord w l 0
    ∧ coord w' l 1 = coord w l 1
    ∧ ∃ z, coord w l 2 = Some z ∧ coord w' l 2 = Some (z + c).
Proof.
  intros Hnd Hlen w' i l Hi. unfold coord, w'.
  assert (l ∈ X) as Hl by (apply list_elem_of_lookup; eauto).
  destruct (deref (heap w) l !! 2%nat) as [z|] eqn:Ez.
  2:{ apply lookup_ge_None in Ez. specialize (Hlen l Hl). lia. }
  rewrite self_learn_heap by done.
  rewrite !(calibrated_lookup _ _ _ z) by done. simpl.
  split; [done|]. split; [done|]. exists z. split; [done|]. f_equal.
  rewrite iter_add.
  destruct (decide (c = 0)) as [->|]; [lia|].
  rewrite count_occ_NoDup by done. lia.
Qed.

(** C10, as the code has it: with a non-zero offset and three axes in
    every vector, the list objects the caller named in [X] are themselves
    written: after the call, under each identity [l] of [X], the third
    coordinate is the original one with [c] added to it once for every
    place of [X] that names [l], one addition after the other, whether
    [fit] then accepts the data or not. *)
Theorem self_learn_mutates_in_place (X : list loc) (y : list Z) (c : Z) (w : world) :
  c ≠ 0 →
  three_axes w X →
  let w' := (self_learn X y (Some c) w).2 in
  ∀ l, l ∈ X →
    ∃ z, coord w l 2 = Some z
         ∧ (1 ≤ count_occ Pos.eq_dec X l)%nat
         ∧ coord w' l 2
           = Some (Nat.iter (count_occ Pos.eq_dec X l) (λ x, x + c) z).
Proof.
  intros Hc Hlen w' l Hl. unfold coord, w'.
  destruct (deref (heap w) l !! 2%nat) as [z|] eqn:Ez.
  2:{ apply lookup_ge_None in Ez. specialize (Hlen l Hl). lia. }
  rewrite self_learn_heap by done.
  rewrite (calibrated_lookup _ _ _ z) by done. simpl.
  rewrite decide_False by done.
  exists z. split; [done|]. split; [by apply count_occ_elem_of|done].
Qed.

(** List objects that [X] does not name are left alone. *)
Lemma self_learn_frame (X : list loc) (y : list Z) (c : Z) (w : world) l :
  three_axes w X → l ∉ X →
  deref (heap (self_learn X y (Some c) w).2) l = deref (heap w) l.
Proof.
  intros Hlen Hl. rewrite self_learn_heap by done.
  replace (count_occ Pos.eq_dec X l) with 0%nat.
  - destruct (decide (c = 0)); apply calibrated_0.
  - symmetry. apply count_occ_not_In. by rewrite <- list_elem_of_In.
Qed.

End learning_adapter.

(** ** The model at work on concrete worlds *)

Lemma standin_pickle_faithful : @pickle_faithful Standin.pickle.
Proof.
  intros d. unfold pickle_loads, pickle_dumps, Standin.pickle.
  assert (∀ p, Standin.bytes_eqb (Standin.positive_to_bytes p)
                 Standin.sys_exit_pickle = false) as ->.
  { intros p. apply bool_decide_eq_false. by destruct p. }
  assert (∀ p, Standin.bytes_to_positive (Standin.positive_to_bytes p) = Some p) as ->.
  { induction p as [p IH|p IH|]; simpl; by rewrite ?IH. }
  simpl. by rewrite decode_encode.
Qed.

Lemma three_axes_two_vectors X :
  X ⊆ [1%positive; 2%positive] → three_axes two_vectors X.
Proof.
  intros HX l Hl. apply HX in Hl.
  apply elem_of_cons in Hl as [->|Hl]; [vm_compute; lia|].
  apply elem_of_cons in Hl as [->|Hl]; [vm_compute; lia|].
  by apply elem_of_nil in Hl.
Qed.

(** A directory at the snapshot path makes the restore raise; [self_heal]
    logs the error and goes on. *)
Example self_heal_directory :
  (restore_cache dir_in_the_way).1 = Raise (Exn IsADirectoryError cache_dump_pkl)
  ∧ (self_heal dir_in_the_way).1 = Ok tt
  ∧ list.last (log (self_heal dir_in_the_way).2)
    = Some (LogRecord ERROR [Text "Self-healing failed: ";
                             Err (Exn IsADirectoryError cache_dump_pkl)]).
Proof. vm_compute. done. Qed.

(** So does a snapshot file that holds no pickle; the cache stays. *)
Example self_heal_corrupt_snapshot :
  (self_heal corrupt_snapshot).1 = Ok tt
  ∧ list.last (log (self_heal corrupt_snapshot).2)
    = Some (LogRecord ERROR [Text "Self-healing failed: ";
                             Err (Exn UnpicklingError "invalid load key")])
  ∧ cache (self (self_heal corrupt_snapshot).2) = cache (self corrupt_snapshot).
Proof. vm_compute. done. Qed.

(** A dump onto a directory raises, and nothing guards it. *)
Example dump_cache_directory :
  (dump_cache dir_in_the_way).1 = Raise (Exn IsADirectoryError cache_dump_pkl).
Proof. vm_compute. done. Qed.

(** A file that is no shared library: the loader's error is caught. *)
Example load_plugins_bad_plugin :
  (load_plugins "sensors.so" bad_plugin).1 = Ok None
  ∧ list.last (log (load_plugins "sensors.so" bad_plugin).2)
    = Some (LogRecord ERROR [Text "Error loading plugin: ";
                             Err (Exn OSError "invalid ELF header")]).
Proof. vm_compute. done. Qed.

(** Distinct vectors: each third coordinate moves by the offset, once. *)
Example self_learn_distinct :
  heap (self_learn X_distinct [0; 1] (Some 5) two_vectors).2
  = {[1%positive := [10; 20; 35]; 2%positive := [11; 21; 36]]}.
Proof. vm_compute. done. Qed.

(** A vector too short: the loop raises on it, after it has written the
    vectors before it. *)
Example self_learn_short_vector :
  let w := with_heap <[2%positive := [11; 21]]> two_vectors in
  (self_learn X_distinct [0; 1] (Some 5) w).1
  = Raise (Exn IndexError "list index out of range")
  ∧ coord (self_learn X_distinct [0; 1] (Some 5) w).2 1 2 = Some 35.
Proof. vm_compute. done. Qed.

(** Witnesses and counterexamples of the claims. *)

Lemma restore_after_dump_witness :
  ∃ w2, restore_cache (with_self (set_cache ∅) (dump_cache one_entry).2) = (Ok tt, w2)
        ∧ cache (self w2) = cache (self one_entry).
Proof.
  apply (restore_after_dump one_entry (dump_cache one_entry).2).
  - exact standin_pickle_faithful.
  - vm_compute. reflexivity.
  - reflexivity.
Defined.

Lemma dump_cache_idempotent_witness :
  ∃ w2, dump_cache (dump_cache one_entry).2 = (Ok tt, w2)
        ∧ fs w2 = fs (dump_cache one_entry).2
        ∧ fs w2 !! cache_dump_pkl
          = Some (File (pickle_dumps (cache (self one_entry)))).
Proof.
  apply (dump_cache_idempotent one_entry (dump_cache one_entry).2).
  vm_compute. reflexivity.
Defined.

Lemma restore_cache_absent_witness :
  ∃ w', restore_cache one_entry = (Ok tt, w')
        ∧ list.last (log w') = Some no_dump_found
        ∧ cache (self w') = cache (self one_entry)
        ∧ (cache (self w') = ∅ ↔ cache (self one_entry) = ∅).
Proof. apply (restore_cache_absent one_entry). reflexivity. Defined.

(** C2 fails on a process that holds a cache entry: no snapshot file, the
    restore returns normally, and the cache is the entry still, not the
    empty mapping. *)
Lemma restore_cache_absent_keeps_entry :
  fs one_entry !! cache_dump_pkl = None
  ∧ (restore_cache one_entry).1 = Ok tt
  ∧ cache (self (restore_cache one_entry).2) = {["session" := PyInt 1]}
  ∧ cache (self (restore_cache one_entry).2) ≠ ∅.
Proof.
  split; [reflexivity|]. split; [reflexivity|]. split; [reflexivity|].
  intros E. apply (f_equal (λ m : dict, m !! "session")) in E.
  vm_compute in E. discriminate E.
Defined.

Lemma restore_cache_absent_frame_witness :
  ∃ w', restore_cache one_entry = (Ok tt, w')
        ∧ cache (self w') = cache (self one_entry)
        ∧ w' = with_log (λ lg, lg ++ [restoring; no_dump_found]) one_entry.
Proof. apply (restore_cache_absent_frame one_entry). reflexivity. Defined.

Lemma load_plugins_failure_is_absent_witness :
  ∃ w' m, load_plugins "sensors.so" (started 0) = (Ok None, w')
          ∧ list.last (log w') = Some (LogRecord ERROR m)
          ∧ self w' = self (started 0) ∧ fs w' = fs (started 0).
Proof.
  apply (load_plugins_failure_is_absent "sensors.so" (started 0)).
  left. reflexivity.
Defined.

Lemma daily_threshold_boundary_witness :
  maintain_memory_body (checked_at (1000 + hours 23 + minutes 59) (started 1000))
  = (Ok tt, with_clock (λ t, t + 60 * 1000000)
              (checked_at (1000 + hours 23 + minutes 59) (started 1000)))
  ∧ ∃ w', maintain_memory_body (checked_at (1000 + hours 24 + minutes 1) (started 1000))
          = (Ok tt, w')
          ∧ memory (self w') =
              <["last_update" := PyStr (datetime_str 86460001000)]>
                (memory (self (started 1000)))
          ∧ memory_updates (log w') = S (memory_updates (log (started 1000)))
          ∧ last_update_time (self w') = 86460001000.
Proof. apply (daily_threshold_boundary (started 1000) 1000). reflexivity. Defined.

Lemma calibration_application_witness :
  coord (self_learn X_distinct [0; 1] (Some 5) two_vectors).2 2%positive 0
  = coord two_vectors 2%positive 0
  ∧ coord (self_learn X_distinct [0; 1] (Some 5) two_vectors).2 2%positive 1
    = coord two_vectors 2%positive 1
  ∧ ∃ z, coord two_vectors 2%positive 2 = Some z
         ∧ coord (self_learn X_distinct [0; 1] (Some 5) two_vectors).2 2%positive 2
           = Some (z + 5).
Proof.
  apply (calibration_application X_distinct [0; 1] 5 two_vectors) with (i := 1%nat).
  - apply (bool_decide_unpack (NoDup X_distinct)). vm_compute. exact I.
  - apply three_axes_two_vectors. reflexivity.
  - reflexivity.
Defined.

(** C3 fails when [X] names one list object twice: the offset is applied
    to it twice, and its third coordinate ends 10 above, not 5. *)
Lemma calibration_aliased_vectors :
  three_axes two_vectors X_aliased
  ∧ X_aliased !! 0%nat = Some 1%positive
  ∧ coord two_vectors 1%positive 2 = Some 30
  ∧ coord (self_learn X_aliased [0; 1] (Some 5) two_vectors).2 1%positive 2 = Some 40
  ∧ Some 40 ≠ Some (30 + 5).
Proof.
  split.
  - apply three_axes_two_vectors. intros l Hl.
    apply elem_of_cons in Hl as [->|Hl]; [by left|].
    apply elem_of_cons in Hl as [->|Hl]; [by left|]. by apply elem_of_nil in Hl.
  - split; [reflexivity|]. split; [reflexivity|]. split; [reflexivity|].
    discriminate.
Defined.

Lemma self_learn_mutates_in_place_witness :
  ∃ z, coord two_vectors 1%positive 2 = Some z
       ∧ (1 ≤ count_occ Pos.eq_dec X_aliased 1%positive)%nat
       ∧ coord (self_learn X_aliased [0; 1] (Some 5) two_vectors).2 1%positive 2
         = Some (Nat.iter (count_occ Pos.eq_dec X_aliased 1%positive) (λ x, x + 5) z).
Proof.
  apply (self_learn_mutates_in_place X_aliased [0; 1] 5 two_vectors).
  - discriminate.
  - apply three_axes_two_vectors. intros l Hl.
    apply elem_of_cons in Hl as [->|Hl]; [by left|].
    apply elem_of_cons in Hl as [->|Hl]; [by left|]. by apply elem_of_nil in Hl.
  - by left.
Defined.

(** C10 fails when a vector of [X] has no third coordinate: the loop raises
    on it, and the vector after it is not written, offset 5 or not. *)
Lemma self_learn_short_vector_first :
  (self_learn X_short_first [0; 1] (Some 5) short_vector).1
  = Raise (Exn IndexError "list index out of range")
  ∧ X_short_first !! 1%nat = Some 1%positive
  ∧ coord short_vector 1%positive 2 = Some 30
  ∧ coord (self_learn X_short_first [0; 1] (Some 5) short_vector).2 1%positive 2
    = Some 30
  ∧ coord (self_learn X_short_first [0; 1] (Some 5) short_vector).2 2%positive 2
    = None.
Proof. vm_compute. done. Defined.



(** * Further properties of the code *)

(** ** Durable Store, beyond the snapshot round trip *)

Section durable_store_effects.
Context `{!Pickle}.

(** X1: a dump, whether it succeeds or raises, writes no file but the
    snapshot and the log file: every other path of the file system, the
    object and the list objects are as before. *)
Theorem dump_cache_touches_only_snapshot (w : world) (p : string) :
  p ≠ cache_dump_pkl →
  p ≠ asi_log →
  fs (dump_cache w).2 !! p = fs w !! p
  ∧ self (dump_cache w).2 = self w
  ∧ heap (dump_cache w).2 = heap w.
Proof.
  intros Hp _. rewrite dump_cache_run.
  destruct (fs w !! cache_dump_pkl) as [[b|b|]|]; simpl;
    (split; [|done]); try done; by apply lookup_insert_ne.
Qed.

(** X2: with a directory at the snapshot path the dump raises
    [IsADirectoryError], which nothing in [dump_cache] catches: whatever
    follows the call is not run; the directory is still there, the object
    is as before, and "Dumping cache to file..." is the last log line. *)
Theorem dump_cache_directory_propagates {A} (k : M A) (w : world) :
  fs w !! cache_dump_pkl = Some Dir →
  ∃ w', (dump_cache ;; k) w = (Raise (Exn IsADirectoryError cache_dump_pkl), w')
        ∧ fs w' !! cache_dump_pkl = Some Dir
        ∧ self w' = self w
        ∧ list.last (log w') = Some dumping.
Proof.
  intros E. rewrite bind_run, dump_cache_run, E. eexists.
  split; [reflexivity|]. simpl. by rewrite last_snoc.
Qed.

(** X3: the snapshot holds the cache only: an update of the memory table
    before the dump changes neither the outcome of the dump nor what the
    snapshot path holds after it. *)
Theorem dump_cache_ignores_memory (k : string) (v : pyval) (w : world) :
  ((update_memory k v ;; dump_cache) w).1 = (dump_cache w).1
  ∧ fs ((update_memory k v ;; dump_cache) w).2 !! cache_dump_pkl
    = fs (dump_cache w).2 !! cache_dump_pkl.
Proof.
  rewrite bind_run. unfold update_memory at 1 2. run.
  rewrite !dump_cache_run. simpl.
  by destruct (fs w !! cache_dump_pkl) as [[b|b|]|].
Qed.



(** X6: a restore from a readable snapshot replaces the cache by the
    dictionary loaded, whatever the cache held: entries of the old cache
    that the snapshot lacks are gone. *)
Theorem restore_cache_replaces (w : world) (b : bytes) (d : dict) :
  fs w !! cache_dump_pkl = Some (File b) →
  pickle_loads b = Ok d →
  ∃ w', restore_cache w = (Ok tt, w')
        ∧ cache (self w') = d
        ∧ list.last (log w') = Some restored.
Proof.
  intros E L. rewrite restore_cache_run, E, L. eexists.
  split; [reflexivity|]. simpl. split; [done|]. by rewrite last_snoc.
Qed.



(** X9: across a restart, the cache survives and the memory table does
    not: after a dump that succeeded, a new object ([__init__]) healed by
    [self_heal] holds the cache that was dumped and an empty memory table,
    and the healing is logged as successful. *)
Theorem cache_survives_restart (w w1 : world) :
  pickle_faithful →
  dump_cache w = (Ok tt, w1) →
  ∃ w2, (ASI_init ;; self_heal) w1 = (Ok tt, w2)
        ∧ cache (self w2) = cache (self w)
        ∧ memory (self w2) = ∅
        ∧ list.last (log w2)
          = Some (LogRecord INFO [Text "Self-healing successful."]).
Proof.
  intros Hpickle [E _]%dump_cache_Ok.
  rewrite bind_run. unfold ASI_init. run. unfold self_heal. rewrite bind_run.
  unfold logging_info at 1, logging, modify. cbv beta iota.
  unfold try_except. rewrite bind_run, restore_cache_run. simpl.
  rewrite E, lookup_insert_eq, Hpickle. simpl.
  eexists. split; [reflexivity|]. simpl. by rewrite last_snoc.
Qed.

End durable_store_effects.

(** ** Plugin Loader and Memory Table *)

Section plugin_loader_outcome.
Context `{!Ctypes}.


End plugin_loader_outcome.

(** X11: an update of the memory table sets the entry of its key and
    nothing else: every other key keeps its entry, and the cache, the
    snapshot on disk and the last update time are as before. *)
Theorem update_memory_sets_one_entry (k k' : string) (v : pyval) (w : world) :
  k' ≠ k →
  (update_memory k v w).1 = Ok tt
  ∧ memory (self (update_memory k v w).2) !! k = Some v
  ∧ memory (self (update_memory k v w).2) !! k' = memory (self w) !! k'
  ∧ cache (self (update_memory k v w).2) = cache (self w)
  ∧ fs (update_memory k v w).2 !! cache_dump_pkl = fs w !! cache_dump_pkl
  ∧ last_update_time (self (update_memory k v w).2) = last_update_time (self w).
Proof.
  intros Hne. simpl. split; [done|]. split; [apply lookup_insert_eq|].
  split; [|done]. by apply lookup_insert_ne.
Qed.

(** X12: updates of two different keys give the same memory table in
    either order. *)
Theorem update_memory_commutes (k1 k2 : string) (v1 v2 : pyval) (w : world) :
  k1 ≠ k2 →
  memory (self ((update_memory k1 v1 ;; update_memory k2 v2) w).2)
  = memory (self ((update_memory k2 v2 ;; update_memory k1 v1) w).2).
Proof. intros Hne. simpl. by apply insert_insert_ne. Qed.

(** ** Learning Adapter, beyond the calibrated coordinate *)

Lemma for_app {A} (xs ys : list A) (body : A → M unit) w :
  for_ (xs ++ ys) body w
  = match for_ xs body w with
    | (Ok _, w1) => for_ ys body w1
    | (Raise e, w1) => (Raise e, w1)
    | (Escape s, w1) => (Escape s, w1)
    end.
Proof.
  revert w. induction xs as [|x xs IH]; intros w; [done|].
  simpl. rewrite !bind_run. destruct (body x w) as [[[]|e|s] w1]; [apply IH|done..].
Qed.

Lemma calibrated_length c n v : length (calibrated c n v) = length v.
Proof. unfold calibrated. destruct (v !! 2%nat); [apply length_insert|done]. Qed.

Lemma calibrated_no_offset n v : calibrated 0 n v = v.
Proof.
  unfold calibrated. destruct (v !! 2%nat) as [z|] eqn:E; [|done].
  apply list_insert_id. rewrite E, iter_add. f_equal. lia.
Qed.

Lemma calibrate_one_short c l w :
  (length (deref (heap w) l) < 3)%nat →
  calibrate_one c l w = (Raise (Exn IndexError "list index out of range"), w).
Proof.
  intros Hshort. unfold calibrate_one. run.
  by rewrite (lookup_ge_None_2 _ 2%nat) by lia.
Qed.

Section learning_adapter_effects.
Context `{!Sklearn}.

(** [self_learn] with an offset that counts as true: the loop over the
    elements, then the fit unless the loop raised. *)
Lemma self_learn_run (X : list loc) (y : list Z) (c : Z) (w : world) :
  c ≠ 0 →
  self_learn X y (Some c) w
  = match for_ X (calibrate_one c) (with_log (λ lg, lg ++ [applying]) w) with
    | (Ok _, w1) => model_fit X y (with_log (λ lg, lg ++ [learning]) w1)
    | (Raise e, w1) => (Raise e, w1)
    | (Escape s, w1) => (Escape s, w1)
    end.
Proof.
  intros Hc. unfold self_learn, truthy.
  replace (c =? 0) with false by (symmetry; by apply Z.eqb_neq).
  simpl. rewrite !bind_run.
  unfold logging_info at 1, logging, modify. cbv beta iota.
  pose proof (calibration_loop_elements c [] X
                (with_log (λ lg, lg ++ [applying]) w)) as Hloop.
  simpl in Hloop. unfold applying in *. rewrite Hloop.
  destruct (for_ X (calibrate_one c) _) as [[[]|e|s] w1]; [|done..].
  by rewrite bind_run.
Qed.

Lemma model_fit_run X y w :
  model_fit X y w
  = match fit_error (model (self w)) (deref (heap w) <$> X) y with
    | Some e => (Raise e, w)
    | None =>
        (Ok tt, with_self (set_model
           {| hidden_layer_sizes := hidden_layer_sizes (model (self w));
              max_iter := max_iter (model (self w));
              fitted := fitted (model (self w)) ++ [(deref (heap w) <$> X, y)] |}) w)
    end.
Proof. unfold model_fit. run. by destruct (fit_error _ _ _). Qed.

(** X13: without an offset that counts as true ([None], or 0) no vector is
    read or written: the list objects are untouched, vectors of any length
    are accepted, and the outcome is the one of fitting the raw data. *)
Theorem self_learn_without_calibration (X : list loc) (y : list Z)
    (Z_calibration : option Z) (w : world) :
  truthy Z_calibration = false →
  heap (self_learn X y Z_calibration w).2 = heap w
  ∧ (self_learn X y Z_calibration w).1
    = match fit_error (model (self w)) (deref (heap w) <$> X) y with
      | Some e => Raise e
      | None => Ok tt
      end.
Proof.
  intros Hc. unfold self_learn. rewrite Hc.
  unfold logging_info, logging, modify. repeat (rewrite bind_run; cbv beta iota).
  rewrite model_fit_run. simpl. by destruct (fit_error _ _ _).
Qed.

(** X14: a vector with fewer than three coordinates stops the calibration
    with [IndexError]: the classifier is not fitted, the vectors before the
    short one keep the offset they were given, and all others are as they
    were. *)
Theorem self_learn_short_vector_raises (pre post : list loc) (l : loc)
    (y : list Z) (c : Z) (w : world) :
  c ≠ 0 →
  three_axes w pre →
  (length (deref (heap w) l) < 3)%nat →
  ∃ w', self_learn (pre ++ l :: post) y (Some c) w
        = (Raise (Exn IndexError "list index out of range"), w')
        ∧ model (self w') = model (self w)
        ∧ ∀ l', deref (heap w') l'
                = calibrated c (count_occ Pos.eq_dec pre l') (deref (heap w) l').
Proof.
  intros Hc Hpre Hshort. rewrite self_learn_run by done.
  rewrite for_app.
  destruct (calibration_loop_run c pre (with_log (λ lg, lg ++ [applying]) w))
    as (h' & -> & Hh'); [done|].
  simpl. rewrite bind_run, calibrate_one_short
    by (simpl; rewrite Hh', calibrated_length; exact Hshort).
  eexists. split; [reflexivity|]. simpl. split; [done|]. apply Hh'.
Qed.


(** X16: a second [self_learn] on the same list works on the vectors the
    first one left: each vector ends with the first offset added to its
    third coordinate once for every place of [X] that names it, and then
    the second offset as many times. *)
Theorem self_learn_twice_accumulates (X : list loc) (y1 y2 : list Z)
    (c1 c2 : Z) (w : world) :
  three_axes w X →
  let w1 := (self_learn X y1 (Some c1) w).2 in
  let w2 := (self_learn X y2 (Some c2) w1).2 in
  ∀ l, deref (heap w2) l
       = calibrated c2 (count_occ Pos.eq_dec X l)
           (calibrated c1 (count_occ Pos.eq_dec X l) (deref (heap w) l)).
Proof.
  intros Hlen w1 w2 l.
  assert (∀ y c w0 l0, three_axes w0 X →
            deref (heap (self_learn X y (Some c) w0).2) l0
            = calibrated c (count_occ Pos.eq_dec X l0) (deref (heap w0) l0)) as Hstep.
  { intros y c w0 l0 H0. rewrite self_learn_heap by done.
    destruct (decide (c = 0)) as [->|]; [|done].
    by rewrite calibrated_0, calibrated_no_offset. }
  assert (three_axes w1 X) as Hlen1.
  { intros l0 Hl0. unfold w1. rewrite Hstep by done.
    rewrite calibrated_length. by apply Hlen. }
  unfold w2. rewrite Hstep by done. unfold w1. by rewrite Hstep.
Qed.

(** X17: [self_learn] writes third coordinates only: every list object
    keeps its length, and the list objects [X] does not name are left as
    they were. *)
Theorem self_learn_keeps_shape (X : list loc) (y : list Z) (c : Z) (w : world) :
  three_axes w X →
  let w' := (self_learn X y (Some c) w).2 in
  (∀ l, length (deref (heap w') l) = length (deref (heap w) l))
  ∧ (∀ l, l ∉ X → deref (heap w') l = deref (heap w) l)
  ∧ three_axes w' X.
Proof.
  intros Hlen w'. unfold w'.
  assert (∀ l, length (deref (heap (self_learn X y (Some c) w).2) l)
               = length (deref (heap w) l)) as Hsame.
  { intros l. rewrite self_learn_heap by done. apply calibrated_length. }
  split; [done|]. split.
  - intros l Hl. rewrite self_learn_heap by done.
    replace (count_occ Pos.eq_dec X l) with 0%nat.
    + destruct (decide (c = 0)); apply calibrated_0.
    + symmetry. apply count_occ_not_In. by rewrite <- list_elem_of_In.
  - intros l Hl. rewrite Hsame. by apply Hlen.
Qed.

End learning_adapter_effects.

(** ** Maintenance Loop, turn by turn *)

Section maintenance_loop_turns.
Context `{!DatetimeStr}.

(** A turn that reads the clock more than a day after the last update. *)
Lemma maintain_memory_body_update (w : world) :
  clock w - last_update_time (self w) > timedelta_days 1 →
  maintain_memory_body w =
    (Ok tt,
     with_clock (λ t, t + 60 * 1000000)
       (with_self (set_last_update_time (clock w))
          (with_log (λ lg, lg ++ [daily_update;
                       memory_updated "last_update" (PyStr (datetime_str (clock w)))])
             (with_self (λ a, set_memory
                (<["last_update" := PyStr (datetime_str (clock w))]> (memory a)) a) w)))).
Proof. intros Hd. by rewrite maintain_memory_body_run, bool_decide_eq_true_2. Qed.

Lemma maintain_memory_body_idle (w : world) :
  ¬ clock w - last_update_time (self w) > timedelta_days 1 →
  maintain_memory_body w = (Ok tt, with_clock (λ t, t + 60 * 1000000) w).
Proof. intros Hd. by rewrite maintain_memory_body_run, bool_decide_eq_false_2. Qed.

Lemma memory_updates_daily lg v :
  memory_updates (lg ++ [daily_update; memory_updated "last_update" v])
  = S (memory_updates lg).
Proof. unfold memory_updates. rewrite List.filter_app, length_app. simpl. lia. Qed.

(** X18: the test of the loop is strict: a turn that reads the clock at
    most one day after the last update, one day exactly included (or
    before it, the clock having been set back), does nothing to the
    object, the files or the log. *)
Theorem maintain_memory_body_within_a_day (w : world) :
  clock w - last_update_time (self w) ≤ timedelta_days 1 →
  ∃ w', maintain_memory_body w = (Ok tt, w')
        ∧ self w' = self w
        ∧ log w' = log w
        ∧ fs w' = fs w
        ∧ heap w' = heap w.
Proof.
  intros Hd. rewrite maintain_memory_body_idle by lia. by eexists.
Qed.

(** X19: however long ago the last update was, a turn that finds it more
    than a day old makes one update, not one per day missed: the memory
    table gets the one entry "last_update", [last_update_time] jumps to
    the clock reading, and the cache and the snapshot on disk are not
    touched. *)
Theorem maintain_memory_body_catches_up (w : world) :
  clock w - last_update_time (self w) > timedelta_days 1 →
  ∃ w', maintain_memory_body w = (Ok tt, w')
        ∧ memory (self w')
          = <["last_update" := PyStr (datetime_str (clock w))]> (memory (self w))
        ∧ memory_updates (log w') = S (memory_updates (log w))
        ∧ last_update_time (self w') = clock w
        ∧ cache (self w') = cache (self w)
        ∧ fs w' !! cache_dump_pkl = fs w !! cache_dump_pkl.
Proof.
  intros Hd. rewrite maintain_memory_body_update by done.
  eexists. split; [reflexivity|]. simpl. split; [done|].
  split; [apply memory_updates_daily|done].
Qed.

(** X20: no number of turns makes the loop raise or return early, and of
    the object the loop writes the memory table and the last update time
    only: the cache, the classifier, the list objects and the snapshot on
    disk stay as they are, and so does every key of the memory table but
    "last_update". *)
Theorem maintain_memory_frame (n : nat) (w : world) :
  ∃ w', maintain_memory n w = (Ok tt, w')
        ∧ fs w' !! cache_dump_pkl = fs w !! cache_dump_pkl
        ∧ cache (self w') = cache (self w)
        ∧ model (self w') = model (self w)
        ∧ heap w' = heap w
        ∧ ∀ k, k ≠ "last_update" → memory (self w') !! k = memory (self w) !! k.
Proof.
  revert w. induction n as [|n IH]; intros w; [by exists w|].
  simpl maintain_memory. rewrite bind_run.
  destruct (decide (clock w - last_update_time (self w) > timedelta_days 1)).
  - rewrite maintain_memory_body_update by done.
    match goal with |- context [maintain_memory n ?w1] =>
      destruct (IH w1) as (w' & -> & Hfs & Hc & Hm & Hh & Hk) end.
    exists w'. simpl in *. rewrite Hfs, Hc, Hm, Hh.
    do 5 (split; [done|]).
    intros k Hne. rewrite Hk by done. by apply lookup_insert_ne.
  - rewrite maintain_memory_body_idle by done.
    destruct (IH (with_clock (λ t, t + 60 * 1000000) w))
      as (w' & -> & Hfs & Hc & Hm & Hh & Hk).
    exists w'. simpl in *. by rewrite Hfs, Hc, Hm, Hh.
Qed.

(** X21: the last update time never moves back, whatever the clock reads
    and however many turns are made: after the turns it is the time it
    was, or a time more than one day later. *)
Theorem last_update_time_monotone (n : nat) (w : world) :
  last_update_time (self (maintain_memory n w).2) = last_update_time (self w)
  ∨ last_update_time (self (maintain_memory n w).2)
    > last_update_time (self w) + timedelta_days 1.
Proof.
  revert w. induction n as [|n IH]; intros w; [by left|].
  simpl maintain_memory. rewrite bind_run.
  destruct (decide (clock w - last_update_time (self w) > timedelta_days 1)) as [Hd|Hd].
  - rewrite maintain_memory_body_update by done. right.
    match goal with |- context [maintain_memory n ?w1] =>
      destruct (IH w1) as [H1|H1]; simpl in H1 end.
    + rewrite H1. lia.
    + unfold timedelta_days in *. lia.
  - rewrite maintain_memory_body_idle by done.
    apply (IH (with_clock (λ t, t + 60 * 1000000) w)).
Qed.

End maintenance_loop_turns.

(** ** The script, from the plugin on *)

Section script.
Context `{!Pickle} `{!Ctypes} `{!DatetimeStr}.





(** X25: with a directory at the snapshot path the script dies in
    [dump_cache], before the healing and before the loop: the exception
    reaches the top, after the memory table got its "data_point_1". *)
Theorem main_after_learning_dies_on_directory (n : nat) (w : world) :
  fs w !! cache_dump_pkl = Some Dir →
  ∃ w', main_after_learning n w
        = (Raise (Exn IsADirectoryError cache_dump_pkl), w')
        ∧ memory (self w') !! "data_point_1" = Some (PyStr "Important value")
        ∧ list.last (log w') = Some dumping
        ∧ clock w' = clock w.
Proof.
  intros Hdir. unfold main_after_learning. rewrite bind_run.
  assert (∃ r w1, load_plugins "sensors.so" w = (Ok r, w1)
                  ∧ self w1 = self w ∧ fs w1 = fs w ∧ clock w1 = clock w)
    as (r & w1 & -> & Hs1 & Hf1 & Hc1).
  { unfold load_plugins. rewrite bind_run.
    destruct (fs w !! "sensors.so") as [nd|] eqn:E.
    - rewrite (os_path_exists_Some _ _ nd) by done. run. simpl.
      destruct (CDLL (fs w) "sensors.so") as [h|e|s] eqn:L;
        [by do 2 eexists..|by destruct (CDLL_error _ _ _ L)].
    - rewrite os_path_exists_None by done. run. by do 2 eexists. }
  rewrite bind_run. unfold update_memory at 1. run.
  rewrite dump_cache_run. simpl. rewrite Hf1, Hdir.
  eexists. split; [reflexivity|]. simpl.
  split; [apply lookup_insert_eq|]. split; [by rewrite last_snoc|done].
Qed.

End script.

(** ** The further properties on concrete worlds *)

Lemma three_axes_short_vector : three_axes short_vector [1%positive].
Proof.
  intros l Hl. apply elem_of_cons in Hl as [->|Hl]; [vm_compute; lia|].
  by apply elem_of_nil in Hl.
Qed.

Lemma dump_cache_touches_only_snapshot_witness :
  fs (dump_cache bad_plugin).2 !! "sensors.so" = fs bad_plugin !! "sensors.so"
  ∧ self (dump_cache bad_plugin).2 = self bad_plugin
  ∧ heap (dump_cache bad_plugin).2 = heap bad_plugin.
Proof.
  apply (dump_cache_touches_only_snapshot bad_plugin "sensors.so"); discriminate.
Defined.

Lemma dump_cache_directory_propagates_witness :
  ∃ w', (dump_cache ;; self_heal) dir_in_the_way
        = (Raise (Exn IsADirectoryError cache_dump_pkl), w')
        ∧ fs w' !! cache_dump_pkl = Some Dir
        ∧ self w' = self dir_in_the_way
        ∧ list.last (log w') = Some dumping.
Proof. apply (dump_cache_directory_propagates self_heal dir_in_the_way). reflexivity. Defined.


Lemma restore_cache_replaces_witness :
  ∃ w', restore_cache stale_cache = (Ok tt, w')
        ∧ cache (self w') = {["session" := PyInt 1]}
        ∧ list.last (log w') = Some restored.
Proof.
  apply (restore_cache_replaces stale_cache (pickle_dumps {["session" := PyInt 1]})).
  - vm_compute. reflexivity.
  - apply standin_pickle_faithful.
Defined.



Lemma cache_survives_restart_witness :
  ∃ w2, (ASI_init ;; self_heal) after_dump = (Ok tt, w2)
        ∧ cache (self w2) = cache (self one_entry)
        ∧ memory (self w2) = ∅
        ∧ list.last (log w2)
          = Some (LogRecord INFO [Text "Self-healing successful."]).
Proof.
  apply (cache_survives_restart one_entry after_dump).
  - exact standin_pickle_faithful.
  - vm_compute. reflexivity.
Defined.

Lemma update_memory_sets_one_entry_witness :
  (update_memory "last_update" PyNone after_dump).1 = Ok tt
  ∧ memory (self (update_memory "last_update" PyNone after_dump).2) !! "last_update"
    = Some PyNone
  ∧ memory (self (update_memory "last_update" PyNone after_dump).2) !! "data_point_1"
    = memory (self after_dump) !! "data_point_1"
  ∧ cache (self (update_memory "last_update" PyNone after_dump).2)
    = cache (self after_dump)
  ∧ fs (update_memory "last_update" PyNone after_dump).2 !! cache_dump_pkl
    = fs after_dump !! cache_dump_pkl
  ∧ last_update_time (self (update_memory "last_update" PyNone after_dump).2)
    = last_update_time (self after_dump).
Proof.
  apply (update_memory_sets_one_entry "last_update" "data_point_1" PyNone after_dump).
  discriminate.
Defined.

Lemma update_memory_commutes_witness :
  memory (self ((update_memory "a" PyNone ;; update_memory "b" (PyInt 2)) one_entry).2)
  = memory (self ((update_memory "b" (PyInt 2) ;; update_memory "a" PyNone) one_entry).2).
Proof. apply (update_memory_commutes "a" "b" PyNone (PyInt 2) one_entry). discriminate. Defined.

Lemma self_learn_without_calibration_witness :
  heap (self_learn X_distinct [0; 1] (Some 0) short_vector).2 = heap short_vector
  ∧ (self_learn X_distinct [0; 1] (Some 0) short_vector).1
    = match fit_error (model (self short_vector))
              (deref (heap short_vector) <$> X_distinct) [0; 1] with
      | Some e => Raise e
      | None => Ok tt
      end.
Proof.
  apply (self_learn_without_calibration X_distinct [0; 1] (Some 0) short_vector).
  reflexivity.
Defined.

Lemma self_learn_short_vector_raises_witness :
  ∃ w', self_learn ([1%positive] ++ 2%positive :: [1%positive]) [0; 1; 0] (Some 5)
          short_vector
        = (Raise (Exn IndexError "list index out of range"), w')
        ∧ model (self w') = model (self short_vector)
        ∧ ∀ l', deref (heap w') l'
                = calibrated 5 (count_occ Pos.eq_dec [1%positive] l')
                    (deref (heap short_vector) l').
Proof.
  apply (self_learn_short_vector_raises [1%positive] [1%positive] 2%positive
           [0; 1; 0] 5 short_vector).
  - discriminate.
  - exact three_axes_short_vector.
  - vm_compute. lia.
Defined.


Lemma self_learn_twice_accumulates_witness :
  deref (heap (self_learn X_aliased [0; 1] (Some 7)
                 (self_learn X_aliased [0; 1] (Some 5) two_vectors).2).2) 1%positive
  = calibrated 7 (count_occ Pos.eq_dec X_aliased 1%positive)
      (calibrated 5 (count_occ Pos.eq_dec X_aliased 1%positive)
         (deref (heap two_vectors) 1%positive)).
Proof.
  refine (self_learn_twice_accumulates X_aliased [0; 1] [0; 1] 5 7 two_vectors
            (three_axes_two_vectors X_aliased _) 1%positive).
  intros l Hl.
  apply elem_of_cons in Hl as [->|Hl]; [by left|].
  apply elem_of_cons in Hl as [->|Hl]; [by left|]. by apply elem_of_nil in Hl.
Defined.

Lemma self_learn_keeps_shape_witness :
  (∀ l, length (deref (heap (self_learn X_aliased [0; 1] (Some 5) two_vectors).2) l)
        = length (deref (heap two_vectors) l))
  ∧ (∀ l, l ∉ X_aliased →
          deref (heap (self_learn X_aliased [0; 1] (Some 5) two_vectors).2) l
          = deref (heap two_vectors) l)
  ∧ three_axes (self_learn X_aliased [0; 1] (Some 5) two_vectors).2 X_aliased.
Proof.
  apply (self_learn_keeps_shape X_aliased [0; 1] 5 two_vectors).
  apply three_axes_two_vectors. intros l Hl.
  apply elem_of_cons in Hl as [->|Hl]; [by left|].
  apply elem_of_cons in Hl as [->|Hl]; [by left|]. by apply elem_of_nil in Hl.
Defined.

Lemma maintain_memory_body_within_a_day_witness :
  ∃ w', maintain_memory_body (checked_at (hours 24) (started 0)) = (Ok tt, w')
        ∧ self w' = self (checked_at (hours 24) (started 0))
        ∧ log w' = log (checked_at (hours 24) (started 0))
        ∧ fs w' = fs (checked_at (hours 24) (started 0))
        ∧ heap w' = heap (checked_at (hours 24) (started 0)).
Proof.
  apply (maintain_memory_body_within_a_day (checked_at (hours 24) (started 0))).
  vm_compute. discriminate.
Defined.

Lemma maintain_memory_body_catches_up_witness :
  ∃ w', maintain_memory_body overdue = (Ok tt, w')
        ∧ memory (self w')
          = <["last_update" := PyStr (datetime_str (clock overdue))]> (memory (self overdue))
        ∧ memory_updates (log w') = S (memory_updates (log overdue))
        ∧ last_update_time (self w') = clock overdue
        ∧ cache (self w') = cache (self overdue)
        ∧ fs w' !! cache_dump_pkl = fs overdue !! cache_dump_pkl.
Proof. apply (maintain_memory_body_catches_up overdue). reflexivity. Defined.


Lemma main_after_learning_dies_on_directory_witness :
  ∃ w', main_after_learning 3 dir_in_the_way
        = (Raise (Exn IsADirectoryError cache_dump_pkl), w')
        ∧ memory (self w') !! "data_point_1" = Some (PyStr "Important value")
        ∧ list.last (log w') = Some dumping
        ∧ clock w' = clock dir_in_the_way.
Proof. apply (main_after_learning_dies_on_directory 3 dir_in_the_way). reflexivity. Defined.
